(** * Port-range policy store of [CoreWebView2ExperimentalEnvironmentOptionsBase]

    Shallow embedding of
    [build/native/include/WebView2ExperimentalEnvironmentOptions.h]:
    the two COM methods [SetAllowedPortRange] and
    [GetEffectiveAllowedPortRange], the private helpers [MakePortConfigKey]
    and [IsValidPortConfig], and the member [port_configs_].

    The methods mutate the object's map and write through caller-supplied
    [INT32*] pointers, so they are embedded in a state monad over the
    object's member and the caller's memory. *)

From Stdlib Require Import ZArith Lia.
From stdpp Require Import base option gmap fin_maps.

Local Open Scope Z_scope.

(** ** Host types *)

(** The two [HRESULT] values the methods return. *)
Inductive HRESULT : Set :=
  | S_OK
  | E_INVALIDARG.

(** C++ enumerations cross the COM boundary as plain integers and the code
    itself guards against values that are no enumerator ("e.g. 999, -1"), so
    a scope and a protocol are integers here.  [INT32] is a signed 32-bit
    integer; the code only compares and copies ports, it never computes
    with them, so no wrap-around arises and every statement below holds for
    all integers, those of 32 bits among them. *)
Abbreviation COREWEBVIEW2_ALLOWED_PORT_RANGE_SCOPE := Z (only parsing).
Abbreviation COREWEBVIEW2_TRANSPORT_PROTOCOL_KIND := Z (only parsing).
Abbreviation INT32 := Z (only parsing).

(** The enumerators of the scope are declared in [WebView2Experimental.h];
    their values are those the comment in [GetEffectiveAllowedPortRange]
    records: "Expected: DEFAULT=0, WEB_RTC=1". *)
Definition COREWEBVIEW2_ALLOWED_PORT_RANGE_SCOPE_DEFAULT : Z := 0.
Definition COREWEBVIEW2_ALLOWED_PORT_RANGE_SCOPE_WEB_RTC : Z := 1.

(** An [INT32*]: an address, the null pointer being address 0. A pointer
    that is not null is taken to designate a writable [INT32] cell, as the
    COM contract of an out-parameter requires; memory maps the address of
    a cell to the value it holds, and two pointers designate the same cell
    exactly when they are equal. *)
Abbreviation ptr := N (only parsing).
Definition nullptr : N := 0%N.

(** [port_configs_]: map of (scope, protocol) -> (minPort, maxPort). *)
Abbreviation port_config_map := (gmap (Z * Z) (Z * Z)) (only parsing).

(** What a call can read and change: the object's one data member and the
    memory the out-parameters point into. *)
Record state : Type := State {
  port_configs_ : port_config_map;
  memory : gmap N Z
}.

(** ** The monad of a method body *)

Definition M (A : Type) : Type := state -> A * state.

#[global] Instance M_ret : MRet M := fun A (a : A) s => (a, s).
#[global] Instance M_bind : MBind M :=
  fun A B (k : A -> M B) (m : M A) s => let (a, s') := m s in k a s'.

(** [port_configs_.find(key)], with [None] for [port_configs_.end()]. *)
Definition find (key : Z * Z) : M (option (Z * Z)) :=
  fun s => (port_configs_ s !! key, s).

(** [port_configs_[key] = value]: [operator[]] inserts the key when it is
    absent, the assignment then overwrites the mapped value. *)
Definition assign (key value : Z * Z) : M unit :=
  fun s => (tt, State (<[key := value]> (port_configs_ s)) (memory s)).

(** [*p = v]. *)
Definition store (p : ptr) (v : INT32) : M unit :=
  fun s => (tt, State (port_configs_ s) (<[p := v]> (memory s))).

(** The result and the final state of running a method body. *)
Definition result {A} (m : M A) (s : state) : A := (m s).1.
Definition final {A} (m : M A) (s : state) : state := (m s).2.

(** ** The class *)

Section CoreWebView2ExperimentalEnvironmentOptionsBase.

(** The value of the one enumerator of the protocol is declared in
    [WebView2Experimental.h] and recorded nowhere in this file: it is a
    parameter of the development. *)
Variable COREWEBVIEW2_TRANSPORT_PROTOCOL_KIND_UDP : Z.

Definition MakePortConfigKey
    (scope : COREWEBVIEW2_ALLOWED_PORT_RANGE_SCOPE)
    (protocol : COREWEBVIEW2_TRANSPORT_PROTOCOL_KIND) : Z * Z :=
  (scope, protocol).

Definition IsValidPortConfig
    (scope : COREWEBVIEW2_ALLOWED_PORT_RANGE_SCOPE)
    (protocol : COREWEBVIEW2_TRANSPORT_PROTOCOL_KIND)
    (minPort maxPort : INT32) : bool :=
  if negb (scope =? COREWEBVIEW2_ALLOWED_PORT_RANGE_SCOPE_DEFAULT) &&
     negb (scope =? COREWEBVIEW2_ALLOWED_PORT_RANGE_SCOPE_WEB_RTC)
  then false
  else if negb (protocol =? COREWEBVIEW2_TRANSPORT_PROTOCOL_KIND_UDP)
  then false
  else if (minPort =? 0) && (maxPort =? 0)
  then true
  else
    let kMinValidPort := 1025 in
    let kMaxValidPort := 65535 in
    if (minPort <? kMinValidPort) || (minPort >? kMaxValidPort)
    then false
    else if (maxPort <? kMinValidPort) || (maxPort >? kMaxValidPort)
    then false
    else if minPort >? maxPort
    then false
    else true.

Definition SetAllowedPortRange
    (scope : COREWEBVIEW2_ALLOWED_PORT_RANGE_SCOPE)
    (protocol : COREWEBVIEW2_TRANSPORT_PROTOCOL_KIND)
    (minPort maxPort : INT32) : M HRESULT :=
  if negb (IsValidPortConfig scope protocol minPort maxPort)
  then mret E_INVALIDARG
  else
    let key := MakePortConfigKey scope protocol in
    assign key (minPort, maxPort) ;;
    mret S_OK.

Definition GetEffectiveAllowedPortRange
    (scope : COREWEBVIEW2_ALLOWED_PORT_RANGE_SCOPE)
    (protocol : COREWEBVIEW2_TRANSPORT_PROTOCOL_KIND)
    (minPort maxPort : ptr) : M HRESULT :=
  if negb (scope =? COREWEBVIEW2_ALLOWED_PORT_RANGE_SCOPE_DEFAULT) &&
     negb (scope =? COREWEBVIEW2_ALLOWED_PORT_RANGE_SCOPE_WEB_RTC)
  then mret E_INVALIDARG
  else if negb (protocol =? COREWEBVIEW2_TRANSPORT_PROTOCOL_KIND_UDP)
  then mret E_INVALIDARG
  else if (minPort =? nullptr)%N || (maxPort =? nullptr)%N
  then mret E_INVALIDARG
  else
    let key := MakePortConfigKey scope protocol in
    it ← find key;
    match it with
    | Some second =>
        store minPort second.1 ;;
        store maxPort second.2 ;;
        mret S_OK
    | None =>
        let default_key :=
          MakePortConfigKey COREWEBVIEW2_ALLOWED_PORT_RANGE_SCOPE_DEFAULT
                            protocol in
        default_it ← find default_key;
        match default_it with
        | Some second =>
            store minPort second.1 ;;
            store maxPort second.2 ;;
            mret S_OK
        | None =>
            store minPort 0 ;;
            store maxPort 0 ;;
            mret S_OK
        end
    end.

(** ** Clients of the object *)

(** One call a client makes on the object, with its arguments. *)
Inductive call : Type :=
  | CallSetAllowedPortRange (scope protocol : Z) (minPort maxPort : INT32)
  | CallGetEffectiveAllowedPortRange (scope protocol : Z) (minPort maxPort : ptr).

Definition exec (c : call) : M HRESULT :=
  match c with
  | CallSetAllowedPortRange scope protocol minPort maxPort =>
      SetAllowedPortRange scope protocol minPort maxPort
  | CallGetEffectiveAllowedPortRange scope protocol minPort maxPort =>
      GetEffectiveAllowedPortRange scope protocol minPort maxPort
  end.

(** The state after a sequence of calls, first call first. *)
Fixpoint run (cs : list call) (s : state) : state :=
  match cs with
  | [] => s
  | c :: cs' => run cs' (final (exec c) s)
  end.

(** The object as the constructor leaves it: [port_configs_] is
    default-constructed, hence empty; the memory is the caller's. *)
Definition constructed (mem : gmap N Z) : state := State ∅ mem.

(** States the examples below start from: a table whose only entry is
    (2000, 3000) for the Default scope; a table whose only entry is
    (2000, 2100) for the WebRtcOnly scope; both over a memory with two
    [INT32] cells, at addresses 16 and 20, holding 7 and 9. *)
Definition example_memory : gmap N Z := {[ 16%N := 7; 20%N := 9 ]}.

Definition example_default_only : state :=
  State {[ (COREWEBVIEW2_ALLOWED_PORT_RANGE_SCOPE_DEFAULT,
            COREWEBVIEW2_TRANSPORT_PROTOCOL_KIND_UDP) := (2000, 3000) ]}
        example_memory.

Definition example_web_rtc_only : state :=
  State {[ (COREWEBVIEW2_ALLOWED_PORT_RANGE_SCOPE_WEB_RTC,
            COREWEBVIEW2_TRANSPORT_PROTOCOL_KIND_UDP) := (2000, 2100) ]}
        example_memory.

(** ** The specification's wording *)

(** The resolution algorithm of GetEffectiveRange as the specification
    words it: the entry of the key, else the entry of the Default scope for
    that protocol, else the sentinel. *)
Definition spec_GetEffectiveRange
    (table : gmap (Z * Z) (Z * Z)) (scope protocol : Z) : Z * Z :=
  match table !! (scope, protocol) with
  | Some range => range
  | None =>
      match table !! (COREWEBVIEW2_ALLOWED_PORT_RANGE_SCOPE_DEFAULT, protocol) with
      | Some range => range
      | None => (0, 0)
      end
  end.

(** The specification's invariant on one stored range, and on the table. *)
Definition range_ok (range : Z * Z) : Prop :=
  range = (0, 0) \/ (1025 <= range.1 /\ range.1 <= range.2 /\ range.2 <= 65535).

Definition table_ok (table : gmap (Z * Z) (Z * Z)) : Prop :=
  map_Forall (fun _ range => range_ok range) table.

(** The keys validation lets through: a recognised scope with the one
    recognised protocol. *)
Definition keys_ok (table : gmap (Z * Z) (Z * Z)) : Prop :=
  forall key, is_Some (table !! key) ->
    key = (COREWEBVIEW2_ALLOWED_PORT_RANGE_SCOPE_DEFAULT,
           COREWEBVIEW2_TRANSPORT_PROTOCOL_KIND_UDP) \/
    key = (COREWEBVIEW2_ALLOWED_PORT_RANGE_SCOPE_WEB_RTC,
           COREWEBVIEW2_TRANSPORT_PROTOCOL_KIND_UDP).

(** ** Proof machinery *)

Ltac bool_cases :=
  repeat match goal with
  | |- context [Z.gtb ?a ?b] => rewrite (Z.gtb_ltb a b)
  | H : context [Z.gtb ?a ?b] |- _ => rewrite (Z.gtb_ltb a b) in H
  | |- context [Z.eqb ?a ?b] => destruct (Z.eqb_spec a b)
  | H : context [Z.eqb ?a ?b] |- _ => destruct (Z.eqb_spec a b)
  | |- context [Z.ltb ?a ?b] => destruct (Z.ltb_spec a b)
  | H : context [Z.ltb ?a ?b] |- _ => destruct (Z.ltb_spec a b)
  | |- context [N.eqb ?a ?b] => destruct (N.eqb_spec a b)
  | H : context [N.eqb ?a ?b] |- _ => destruct (N.eqb_spec a b)
  end.

Ltac run_body :=
  unfold mbind, mret, M_bind, M_ret, find, assign, store, MakePortConfigKey;
  simpl.

(** ** What the validation accepts *)

Lemma IsValidPortConfig_true scope protocol minPort maxPort :
  IsValidPortConfig scope protocol minPort maxPort = true <->
  (scope = COREWEBVIEW2_ALLOWED_PORT_RANGE_SCOPE_DEFAULT \/
   scope = COREWEBVIEW2_ALLOWED_PORT_RANGE_SCOPE_WEB_RTC) /\
  protocol = COREWEBVIEW2_TRANSPORT_PROTOCOL_KIND_UDP /\
  ((minPort = 0 /\ maxPort = 0) \/
   (1025 <= minPort /\ minPort <= maxPort /\ maxPort <= 65535)).
Proof.
  unfold IsValidPortConfig.
  unfold COREWEBVIEW2_ALLOWED_PORT_RANGE_SCOPE_DEFAULT,
         COREWEBVIEW2_ALLOWED_PORT_RANGE_SCOPE_WEB_RTC.
  bool_cases; simpl; split; intros; try discriminate; try lia.
Qed.

(** ** The two paths of [SetAllowedPortRange] *)

Lemma SetAllowedPortRange_accept scope protocol minPort maxPort s :
  IsValidPortConfig scope protocol minPort maxPort = true ->
  SetAllowedPortRange scope protocol minPort maxPort s =
  (S_OK, State (<[(scope, protocol) := (minPort, maxPort)]> (port_configs_ s))
               (memory s)).
Proof. intros Hv. unfold SetAllowedPortRange. rewrite Hv. reflexivity. Qed.

Lemma SetAllowedPortRange_reject scope protocol minPort maxPort s :
  IsValidPortConfig scope protocol minPort maxPort = false ->
  SetAllowedPortRange scope protocol minPort maxPort s = (E_INVALIDARG, s).
Proof. intros Hv. unfold SetAllowedPortRange. rewrite Hv. reflexivity. Qed.

Lemma SetAllowedPortRange_result scope protocol minPort maxPort s :
  result (SetAllowedPortRange scope protocol minPort maxPort) s =
  if IsValidPortConfig scope protocol minPort maxPort then S_OK else E_INVALIDARG.
Proof.
  unfold result.
  destruct (IsValidPortConfig scope protocol minPort maxPort) eqn:Hv.
  - by rewrite SetAllowedPortRange_accept.
  - by rewrite SetAllowedPortRange_reject.
Qed.

(** ** The two paths of [GetEffectiveAllowedPortRange] *)

(** Any of the three guards sends the call to [return E_INVALIDARG] before
    the map is consulted or a pointer dereferenced. *)
Lemma GetEffectiveAllowedPortRange_reject scope protocol minPort maxPort s :
  (scope <> COREWEBVIEW2_ALLOWED_PORT_RANGE_SCOPE_DEFAULT /\
   scope <> COREWEBVIEW2_ALLOWED_PORT_RANGE_SCOPE_WEB_RTC) \/
  protocol <> COREWEBVIEW2_TRANSPORT_PROTOCOL_KIND_UDP \/
  minPort = nullptr \/ maxPort = nullptr ->
  GetEffectiveAllowedPortRange scope protocol minPort maxPort s = (E_INVALIDARG, s).
Proof.
  intros Hbad. unfold GetEffectiveAllowedPortRange.
  bool_cases; simpl; try reflexivity; exfalso; tauto.
Qed.

(** Past the guards the call stores the resolved range, [minPort] first. *)
Lemma GetEffectiveAllowedPortRange_accept scope protocol minPort maxPort s :
  scope = COREWEBVIEW2_ALLOWED_PORT_RANGE_SCOPE_DEFAULT \/
  scope = COREWEBVIEW2_ALLOWED_PORT_RANGE_SCOPE_WEB_RTC ->
  protocol = COREWEBVIEW2_TRANSPORT_PROTOCOL_KIND_UDP ->
  minPort <> nullptr -> maxPort <> nullptr ->
  GetEffectiveAllowedPortRange scope protocol minPort maxPort s =
  (S_OK,
   State (port_configs_ s)
         (<[maxPort := (spec_GetEffectiveRange (port_configs_ s) scope protocol).2]>
            (<[minPort := (spec_GetEffectiveRange (port_configs_ s) scope protocol).1]>
               (memory s)))).
Proof.
  intros Hscope Hproto Hmin Hmax.
  unfold GetEffectiveAllowedPortRange, spec_GetEffectiveRange.
  bool_cases; simpl; try (exfalso; tauto); run_body.
  all: destruct (port_configs_ s !! (scope, protocol)) as [range|]; simpl;
    [reflexivity |];
    destruct (port_configs_ s !!
                (COREWEBVIEW2_ALLOWED_PORT_RANGE_SCOPE_DEFAULT, protocol))
      as [range|]; reflexivity.
Qed.

(** The guards are the only way to [E_INVALIDARG]. *)
Lemma GetEffectiveAllowedPortRange_guards scope protocol minPort maxPort s :
  result (GetEffectiveAllowedPortRange scope protocol minPort maxPort) s = E_INVALIDARG ->
  (scope <> COREWEBVIEW2_ALLOWED_PORT_RANGE_SCOPE_DEFAULT /\
   scope <> COREWEBVIEW2_ALLOWED_PORT_RANGE_SCOPE_WEB_RTC) \/
  protocol <> COREWEBVIEW2_TRANSPORT_PROTOCOL_KIND_UDP \/
  minPort = nullptr \/ maxPort = nullptr.
Proof.
  intros Hres.
  destruct (decide (scope = COREWEBVIEW2_ALLOWED_PORT_RANGE_SCOPE_DEFAULT \/
                    scope = COREWEBVIEW2_ALLOWED_PORT_RANGE_SCOPE_WEB_RTC))
    as [Hscope|Hscope]; [| left; tauto].
  destruct (decide (protocol = COREWEBVIEW2_TRANSPORT_PROTOCOL_KIND_UDP))
    as [Hproto|Hproto]; [| right; left; exact Hproto].
  destruct (decide (minPort = nullptr)) as [Hmin|Hmin]; [tauto |].
  destruct (decide (maxPort = nullptr)) as [Hmax|Hmax]; [tauto |].
  unfold result in Hres.
  rewrite GetEffectiveAllowedPortRange_accept in Hres by assumption.
  discriminate Hres.
Qed.

(** [GetEffectiveAllowedPortRange] never touches [port_configs_]. *)
Lemma GetEffectiveAllowedPortRange_table scope protocol minPort maxPort s :
  port_configs_ (final (GetEffectiveAllowedPortRange scope protocol minPort maxPort) s) =
  port_configs_ s.
Proof.
  unfold final, GetEffectiveAllowedPortRange.
  bool_cases; simpl; try reflexivity; run_body.
  all: destruct (port_configs_ s !! (scope, protocol)) as [range|]; simpl;
    [reflexivity |];
    destruct (port_configs_ s !!
                (COREWEBVIEW2_ALLOWED_PORT_RANGE_SCOPE_DEFAULT, protocol))
      as [range|]; reflexivity.
Qed.

(** ** The invariant along a run *)

Lemma SetAllowedPortRange_table_ok scope protocol minPort maxPort s :
  table_ok (port_configs_ s) ->
  table_ok (port_configs_ (final (SetAllowedPortRange scope protocol minPort maxPort) s)).
Proof.
  intros Hok. unfold final.
  destruct (IsValidPortConfig scope protocol minPort maxPort) eqn:Hv.
  - rewrite SetAllowedPortRange_accept by exact Hv. simpl.
    apply map_Forall_insert_2; [| exact Hok].
    apply IsValidPortConfig_true in Hv as (_ & _ & [[-> ->]|Hrange]).
    + by left.
    + right. simpl. lia.
  - by rewrite SetAllowedPortRange_reject.
Qed.

Lemma exec_table_ok c s :
  table_ok (port_configs_ s) -> table_ok (port_configs_ (final (exec c) s)).
Proof.
  destruct c as [scope protocol minPort maxPort | scope protocol minPort maxPort];
    simpl; intros Hok.
  - by apply SetAllowedPortRange_table_ok.
  - by rewrite GetEffectiveAllowedPortRange_table.
Qed.

Lemma run_table_ok cs : forall s,
  table_ok (port_configs_ s) -> table_ok (port_configs_ (run cs s)).
Proof.
  induction cs as [|c cs IH]; intros s Hok; simpl.
  - exact Hok.
  - apply IH, exec_table_ok, Hok.
Qed.

(** ** The claims *)

(** C1. For a recognised scope, the protocol Udp and two non-null output
    pointers, [GetEffectiveAllowedPortRange] returns [S_OK] and hands back
    exactly the range the specification's three-step resolution names: the
    entry of (scope, protocol), else the entry of (Default, protocol), else
    (0, 0). It stores the minimum through [minPort], then the maximum
    through [maxPort]; read back, [maxPort] holds the maximum, and
    [minPort] the minimum whenever the two pointers differ. *)
Theorem GetEffectiveAllowedPortRange_resolves scope protocol minPort maxPort s :
  scope = COREWEBVIEW2_ALLOWED_PORT_RANGE_SCOPE_DEFAULT \/
  scope = COREWEBVIEW2_ALLOWED_PORT_RANGE_SCOPE_WEB_RTC ->
  protocol = COREWEBVIEW2_TRANSPORT_PROTOCOL_KIND_UDP ->
  minPort <> nullptr -> maxPort <> nullptr ->
  result (GetEffectiveAllowedPortRange scope protocol minPort maxPort) s = S_OK /\
  memory (final (GetEffectiveAllowedPortRange scope protocol minPort maxPort) s) =
    <[maxPort := (spec_GetEffectiveRange (port_configs_ s) scope protocol).2]>
      (<[minPort := (spec_GetEffectiveRange (port_configs_ s) scope protocol).1]>
         (memory s)) /\
  memory (final (GetEffectiveAllowedPortRange scope protocol minPort maxPort) s)
    !! maxPort = Some (spec_GetEffectiveRange (port_configs_ s) scope protocol).2 /\
  (minPort <> maxPort ->
   memory (final (GetEffectiveAllowedPortRange scope protocol minPort maxPort) s)
     !! minPort = Some (spec_GetEffectiveRange (port_configs_ s) scope protocol).1).
Proof.
  intros Hscope Hproto Hmin Hmax. unfold result, final.
  rewrite GetEffectiveAllowedPortRange_accept by assumption. simpl.
  repeat split.
  - apply lookup_insert_eq.
  - intros Hne. rewrite lookup_insert_ne by congruence. apply lookup_insert_eq.
Qed.

(** C2. [SetAllowedPortRange] returns [E_INVALIDARG] exactly when the scope
    is neither Default nor WebRtcOnly, or the protocol is not Udp, or the
    pair of ports is not (0, 0) and a port lies outside [1025, 65535] or
    minPort > maxPort; in every other case it returns [S_OK]. *)
Theorem SetAllowedPortRange_fails_iff scope protocol minPort maxPort s :
  (result (SetAllowedPortRange scope protocol minPort maxPort) s = E_INVALIDARG <->
   (scope <> COREWEBVIEW2_ALLOWED_PORT_RANGE_SCOPE_DEFAULT /\
    scope <> COREWEBVIEW2_ALLOWED_PORT_RANGE_SCOPE_WEB_RTC) \/
   protocol <> COREWEBVIEW2_TRANSPORT_PROTOCOL_KIND_UDP \/
   ((minPort, maxPort) <> (0, 0) /\
    (~ (1025 <= minPort /\ minPort <= 65535) \/
     ~ (1025 <= maxPort /\ maxPort <= 65535) \/
     minPort > maxPort))) /\
  (result (SetAllowedPortRange scope protocol minPort maxPort) s = S_OK <->
   ~ ((scope <> COREWEBVIEW2_ALLOWED_PORT_RANGE_SCOPE_DEFAULT /\
       scope <> COREWEBVIEW2_ALLOWED_PORT_RANGE_SCOPE_WEB_RTC) \/
      protocol <> COREWEBVIEW2_TRANSPORT_PROTOCOL_KIND_UDP \/
      ((minPort, maxPort) <> (0, 0) /\
       (~ (1025 <= minPort /\ minPort <= 65535) \/
        ~ (1025 <= maxPort /\ maxPort <= 65535) \/
        minPort > maxPort)))).
Proof.
  rewrite SetAllowedPortRange_result.
  assert ((minPort, maxPort) <> (0, 0) <-> ~ (minPort = 0 /\ maxPort = 0)) as Hpair.
  { split; intros Hne Heq; apply Hne; [by destruct Heq as [-> ->] | by inversion Heq]. }
  rewrite Hpair.
  destruct (IsValidPortConfig scope protocol minPort maxPort) eqn:Hv.
  - apply IsValidPortConfig_true in Hv.
    split; split.
    + discriminate.
    + intros Hbad. exfalso. lia.
    + intros _. lia.
    + reflexivity.
  - assert (~ ((scope = COREWEBVIEW2_ALLOWED_PORT_RANGE_SCOPE_DEFAULT \/
                scope = COREWEBVIEW2_ALLOWED_PORT_RANGE_SCOPE_WEB_RTC) /\
               protocol = COREWEBVIEW2_TRANSPORT_PROTOCOL_KIND_UDP /\
               ((minPort = 0 /\ maxPort = 0) \/
                (1025 <= minPort /\ minPort <= maxPort /\ maxPort <= 65535))))
      as Hnot.
    { rewrite <- IsValidPortConfig_true, Hv. discriminate. }
    split; split.
    + intros _. lia.
    + reflexivity.
    + discriminate.
    + intros Hgood. exfalso. lia.
Qed.

(** C3. For a recognised scope, the protocol Udp and ports with
    1025 <= minPort <= maxPort <= 65535, whatever the table held before,
    [SetAllowedPortRange] returns [S_OK] and a following
    [GetEffectiveAllowedPortRange] on the same scope and protocol returns
    [S_OK] and hands back exactly (minPort, maxPort). *)
Theorem SetAllowedPortRange_then_Get scope protocol minPort maxPort pMin pMax s :
  scope = COREWEBVIEW2_ALLOWED_PORT_RANGE_SCOPE_DEFAULT \/
  scope = COREWEBVIEW2_ALLOWED_PORT_RANGE_SCOPE_WEB_RTC ->
  protocol = COREWEBVIEW2_TRANSPORT_PROTOCOL_KIND_UDP ->
  1025 <= minPort -> minPort <= maxPort -> maxPort <= 65535 ->
  pMin <> nullptr -> pMax <> nullptr ->
  result (SetAllowedPortRange scope protocol minPort maxPort) s = S_OK /\
  result (GetEffectiveAllowedPortRange scope protocol pMin pMax)
         (final (SetAllowedPortRange scope protocol minPort maxPort) s) = S_OK /\
  memory (final (GetEffectiveAllowedPortRange scope protocol pMin pMax)
                (final (SetAllowedPortRange scope protocol minPort maxPort) s)) =
    <[pMax := maxPort]> (<[pMin := minPort]> (memory s)) /\
  (pMin <> pMax ->
   memory (final (GetEffectiveAllowedPortRange scope protocol pMin pMax)
                 (final (SetAllowedPortRange scope protocol minPort maxPort) s))
     !! pMin = Some minPort /\
   memory (final (GetEffectiveAllowedPortRange scope protocol pMin pMax)
                 (final (SetAllowedPortRange scope protocol minPort maxPort) s))
     !! pMax = Some maxPort).
Proof.
  intros Hscope Hproto Hlo Hle Hhi HpMin HpMax.
  assert (IsValidPortConfig scope protocol minPort maxPort = true) as Hv.
  { apply IsValidPortConfig_true. split; [exact Hscope |]. split; [exact Hproto |].
    right. lia. }
  unfold result, final.
  rewrite SetAllowedPortRange_accept by exact Hv. simpl.
  rewrite GetEffectiveAllowedPortRange_accept by assumption. simpl.
  unfold spec_GetEffectiveRange. rewrite lookup_insert_eq. simpl.
  repeat split.
  - rewrite lookup_insert_ne by congruence. apply lookup_insert_eq.
  - apply lookup_insert_eq.
Qed.

(** C4. For a recognised scope and the protocol Udp, whatever the table
    held before (a non-sentinel range for the Default scope included),
    [SetAllowedPortRange] with (0, 0) returns [S_OK], the table then holds
    (0, 0) under the key, and a following [GetEffectiveAllowedPortRange] on
    the same scope and protocol returns [S_OK] and hands back (0, 0): the
    entry is found first and the Default entry is not consulted. *)
Theorem SetAllowedPortRange_unset_hides_default scope protocol pMin pMax s :
  scope = COREWEBVIEW2_ALLOWED_PORT_RANGE_SCOPE_DEFAULT \/
  scope = COREWEBVIEW2_ALLOWED_PORT_RANGE_SCOPE_WEB_RTC ->
  protocol = COREWEBVIEW2_TRANSPORT_PROTOCOL_KIND_UDP ->
  pMin <> nullptr -> pMax <> nullptr ->
  result (SetAllowedPortRange scope protocol 0 0) s = S_OK /\
  port_configs_ (final (SetAllowedPortRange scope protocol 0 0) s)
    !! (scope, protocol) = Some (0, 0) /\
  result (GetEffectiveAllowedPortRange scope protocol pMin pMax)
         (final (SetAllowedPortRange scope protocol 0 0) s) = S_OK /\
  memory (final (GetEffectiveAllowedPortRange scope protocol pMin pMax)
                (final (SetAllowedPortRange scope protocol 0 0) s)) =
    <[pMax := 0]> (<[pMin := 0]> (memory s)) /\
  memory (final (GetEffectiveAllowedPortRange scope protocol pMin pMax)
                (final (SetAllowedPortRange scope protocol 0 0) s)) !! pMin = Some 0 /\
  memory (final (GetEffectiveAllowedPortRange scope protocol pMin pMax)
                (final (SetAllowedPortRange scope protocol 0 0) s)) !! pMax = Some 0.
Proof.
  intros Hscope Hproto HpMin HpMax.
  assert (IsValidPortConfig scope protocol 0 0 = true) as Hv.
  { apply IsValidPortConfig_true. split; [exact Hscope |]. split; [exact Hproto |].
    left. done. }
  unfold result, final.
  rewrite SetAllowedPortRange_accept by exact Hv. simpl.
  rewrite GetEffectiveAllowedPortRange_accept by assumption. simpl.
  unfold spec_GetEffectiveRange. rewrite lookup_insert_eq. simpl.
  repeat split.
  - destruct (decide (pMax = pMin)) as [->|Hne].
    + apply lookup_insert_eq.
    + rewrite lookup_insert_ne by exact Hne. apply lookup_insert_eq.
  - apply lookup_insert_eq.
Qed.

(** C5. Whenever [SetAllowedPortRange] returns [E_INVALIDARG] the state is
    the one before the call, the table with it, under every key; a
    following [GetEffectiveAllowedPortRange] therefore behaves as it would
    have before the rejected call. *)
Theorem SetAllowedPortRange_failure_no_effect scope protocol minPort maxPort s :
  result (SetAllowedPortRange scope protocol minPort maxPort) s = E_INVALIDARG ->
  final (SetAllowedPortRange scope protocol minPort maxPort) s = s /\
  (forall key,
     port_configs_ (final (SetAllowedPortRange scope protocol minPort maxPort) s) !! key =
     port_configs_ s !! key) /\
  (forall scope' protocol' pMin pMax,
     GetEffectiveAllowedPortRange scope' protocol' pMin pMax
       (final (SetAllowedPortRange scope protocol minPort maxPort) s) =
     GetEffectiveAllowedPortRange scope' protocol' pMin pMax s).
Proof.
  rewrite SetAllowedPortRange_result. unfold final.
  destruct (IsValidPortConfig scope protocol minPort maxPort) eqn:Hv;
    [discriminate |].
  intros _. rewrite SetAllowedPortRange_reject by exact Hv. simpl.
  repeat split.
Qed.

(** C6. The table of a freshly constructed object satisfies the invariant
    (every stored range is (0, 0) or has 1025 <= min <= max <= 65535), each
    call of either method preserves it, and so it holds after every
    sequence of calls on a freshly constructed object. *)
Theorem port_configs_invariant :
  (forall mem, table_ok (port_configs_ (constructed mem))) /\
  (forall c s,
     table_ok (port_configs_ s) -> table_ok (port_configs_ (final (exec c) s))) /\
  (forall cs mem key range,
     port_configs_ (run cs (constructed mem)) !! key = Some range ->
     range = (0, 0) \/
     (1025 <= range.1 /\ range.1 <= range.2 /\ range.2 <= 65535)).
Proof.
  assert (forall mem, table_ok (port_configs_ (constructed mem))) as Hinit.
  { intros mem. unfold table_ok, constructed. simpl. apply map_Forall_empty. }
  split; [exact Hinit |]. split; [exact exec_table_ok |].
  intros cs mem key range Hlookup.
  exact (run_table_ok cs (constructed mem) (Hinit mem) key range Hlookup).
Qed.

(** C7. A call of [SetAllowedPortRange] that returns [S_OK] leaves the table
    as it was with the one entry (scope, protocol) set to
    (minPort, maxPort): every other key keeps its mapping, present or
    absent, and a call on the Default scope leaves every WebRtcOnly entry
    alone. *)
Theorem SetAllowedPortRange_frame scope protocol minPort maxPort s :
  result (SetAllowedPortRange scope protocol minPort maxPort) s = S_OK ->
  port_configs_ (final (SetAllowedPortRange scope protocol minPort maxPort) s) =
    <[(scope, protocol) := (minPort, maxPort)]> (port_configs_ s) /\
  port_configs_ (final (SetAllowedPortRange scope protocol minPort maxPort) s)
    !! (scope, protocol) = Some (minPort, maxPort) /\
  (forall key, key <> (scope, protocol) ->
     port_configs_ (final (SetAllowedPortRange scope protocol minPort maxPort) s) !! key =
     port_configs_ s !! key) /\
  (scope = COREWEBVIEW2_ALLOWED_PORT_RANGE_SCOPE_DEFAULT ->
   forall protocol',
     port_configs_ (final (SetAllowedPortRange scope protocol minPort maxPort) s)
       !! (COREWEBVIEW2_ALLOWED_PORT_RANGE_SCOPE_WEB_RTC, protocol') =
     port_configs_ s !! (COREWEBVIEW2_ALLOWED_PORT_RANGE_SCOPE_WEB_RTC, protocol')).
Proof.
  rewrite SetAllowedPortRange_result. unfold final.
  destruct (IsValidPortConfig scope protocol minPort maxPort) eqn:Hv;
    [| discriminate].
  intros _. rewrite SetAllowedPortRange_accept by exact Hv. simpl.
  split; [reflexivity |]. split; [apply lookup_insert_eq |]. split.
  - intros key Hne. apply lookup_insert_ne. congruence.
  - intros -> protocol'. apply lookup_insert_ne.
    unfold COREWEBVIEW2_ALLOWED_PORT_RANGE_SCOPE_DEFAULT,
           COREWEBVIEW2_ALLOWED_PORT_RANGE_SCOPE_WEB_RTC.
    intros Heq. inversion Heq.
Qed.

(** C8. Calling [SetAllowedPortRange] a second time with the same arguments
    returns what the first call returned and leaves the state the first
    call produced, whatever the arguments and the starting state. *)
Theorem SetAllowedPortRange_idempotent scope protocol minPort maxPort s :
  SetAllowedPortRange scope protocol minPort maxPort
    (final (SetAllowedPortRange scope protocol minPort maxPort) s) =
  (result (SetAllowedPortRange scope protocol minPort maxPort) s,
   final (SetAllowedPortRange scope protocol minPort maxPort) s).
Proof.
  unfold result, final.
  destruct (IsValidPortConfig scope protocol minPort maxPort) eqn:Hv.
  - rewrite !SetAllowedPortRange_accept by exact Hv. simpl.
    by rewrite insert_insert_eq.
  - by rewrite !SetAllowedPortRange_reject.
Qed.

(** C9. Whatever its arguments, accepted or rejected,
    [GetEffectiveAllowedPortRange] leaves the table as it found it. *)
Theorem GetEffectiveAllowedPortRange_pure_read scope protocol minPort maxPort s :
  port_configs_ (final (GetEffectiveAllowedPortRange scope protocol minPort maxPort) s) =
  port_configs_ s.
Proof. apply GetEffectiveAllowedPortRange_table. Qed.

(** C10. When [GetEffectiveAllowedPortRange] returns [E_INVALIDARG] one of
    its guards fired (unrecognised scope, unrecognised protocol, or a null
    output pointer) and nothing was stored: the memory, and with it what
    [minPort] and [maxPort] point at, is as before the call. *)
Theorem GetEffectiveAllowedPortRange_failure_no_write scope protocol minPort maxPort s :
  result (GetEffectiveAllowedPortRange scope protocol minPort maxPort) s = E_INVALIDARG ->
  ((scope <> COREWEBVIEW2_ALLOWED_PORT_RANGE_SCOPE_DEFAULT /\
    scope <> COREWEBVIEW2_ALLOWED_PORT_RANGE_SCOPE_WEB_RTC) \/
   protocol <> COREWEBVIEW2_TRANSPORT_PROTOCOL_KIND_UDP \/
   minPort = nullptr \/ maxPort = nullptr) /\
  memory (final (GetEffectiveAllowedPortRange scope protocol minPort maxPort) s) =
    memory s /\
  memory (final (GetEffectiveAllowedPortRange scope protocol minPort maxPort) s)
    !! minPort = memory s !! minPort /\
  memory (final (GetEffectiveAllowedPortRange scope protocol minPort maxPort) s)
    !! maxPort = memory s !! maxPort.
Proof.
  intros Hres.
  pose proof (GetEffectiveAllowedPortRange_guards _ _ _ _ _ Hres) as Hbad.
  split; [exact Hbad |]. unfold final.
  rewrite GetEffectiveAllowedPortRange_reject by exact Hbad. simpl.
  repeat split.
Qed.

(** ** Further properties of the two methods *)

(** [S_OK] from [GetEffectiveAllowedPortRange] means every guard passed. *)
Lemma GetEffectiveAllowedPortRange_ok_guards scope protocol minPort maxPort s :
  result (GetEffectiveAllowedPortRange scope protocol minPort maxPort) s = S_OK ->
  (scope = COREWEBVIEW2_ALLOWED_PORT_RANGE_SCOPE_DEFAULT \/
   scope = COREWEBVIEW2_ALLOWED_PORT_RANGE_SCOPE_WEB_RTC) /\
  protocol = COREWEBVIEW2_TRANSPORT_PROTOCOL_KIND_UDP /\
  minPort <> nullptr /\ maxPort <> nullptr.
Proof.
  intros Hres.
  destruct (decide (scope = COREWEBVIEW2_ALLOWED_PORT_RANGE_SCOPE_DEFAULT \/
                    scope = COREWEBVIEW2_ALLOWED_PORT_RANGE_SCOPE_WEB_RTC))
    as [Hscope|Hscope];
  [ destruct (decide (protocol = COREWEBVIEW2_TRANSPORT_PROTOCOL_KIND_UDP))
      as [Hproto|Hproto];
    [ destruct (decide (minPort = nullptr)) as [Hmin|Hmin];
      [| destruct (decide (maxPort = nullptr)) as [Hmax|Hmax]; [| done] ] |] |].
  all: exfalso; unfold result in Hres;
    rewrite GetEffectiveAllowedPortRange_reject in Hres by tauto;
    discriminate Hres.
Qed.

(** The memory after [GetEffectiveAllowedPortRange], cell by cell. *)
Lemma GetEffectiveAllowedPortRange_memory scope protocol minPort maxPort s :
  memory (final (GetEffectiveAllowedPortRange scope protocol minPort maxPort) s) =
    memory s \/
  memory (final (GetEffectiveAllowedPortRange scope protocol minPort maxPort) s) =
    <[maxPort := (spec_GetEffectiveRange (port_configs_ s) scope protocol).2]>
      (<[minPort := (spec_GetEffectiveRange (port_configs_ s) scope protocol).1]>
         (memory s)).
Proof.
  destruct (result (GetEffectiveAllowedPortRange scope protocol minPort maxPort) s)
    eqn:Hres.
  - apply GetEffectiveAllowedPortRange_ok_guards in Hres as (? & ? & ? & ?).
    right. unfold final.
    by rewrite GetEffectiveAllowedPortRange_accept.
  - apply GetEffectiveAllowedPortRange_guards in Hres.
    left. unfold final.
    by rewrite GetEffectiveAllowedPortRange_reject.
Qed.

Lemma SetAllowedPortRange_keys_ok scope protocol minPort maxPort s :
  keys_ok (port_configs_ s) ->
  keys_ok (port_configs_ (final (SetAllowedPortRange scope protocol minPort maxPort) s)).
Proof.
  intros Hok. unfold final.
  destruct (IsValidPortConfig scope protocol minPort maxPort) eqn:Hv.
  - rewrite SetAllowedPortRange_accept by exact Hv. simpl.
    apply IsValidPortConfig_true in Hv as (Hscope & -> & _).
    intros key Hsome. apply lookup_insert_is_Some in Hsome as [<- | [_ Hsome]].
    + destruct Hscope as [-> | ->]; [by left | by right].
    + by apply Hok.
  - by rewrite SetAllowedPortRange_reject.
Qed.

Lemma run_keys_ok cs : forall s,
  keys_ok (port_configs_ s) -> keys_ok (port_configs_ (run cs s)).
Proof.
  induction cs as [|c cs IH]; intros s Hok; simpl; [exact Hok |].
  apply IH. destruct c as [scope protocol minPort maxPort | scope protocol minPort maxPort];
    simpl.
  - by apply SetAllowedPortRange_keys_ok.
  - by rewrite GetEffectiveAllowedPortRange_table.
Qed.

(** Neither method erases an entry. *)
Lemma exec_keeps_keys c s key :
  is_Some (port_configs_ s !! key) ->
  is_Some (port_configs_ (final (exec c) s) !! key).
Proof.
  intros Hsome.
  destruct c as [scope protocol minPort maxPort | scope protocol minPort maxPort];
    simpl.
  - unfold final.
    destruct (IsValidPortConfig scope protocol minPort maxPort) eqn:Hv.
    + rewrite SetAllowedPortRange_accept by exact Hv. simpl.
      apply lookup_insert_is_Some.
      destruct (decide ((scope, protocol) = key)); [by left | by right].
    + by rewrite SetAllowedPortRange_reject.
  - by rewrite GetEffectiveAllowedPortRange_table.
Qed.

(** The resolved range of a table that satisfies the invariant satisfies
    it too. *)
Lemma spec_GetEffectiveRange_ok table scope protocol :
  table_ok table -> range_ok (spec_GetEffectiveRange table scope protocol).
Proof.
  intros Hok. unfold spec_GetEffectiveRange.
  destruct (table !! (scope, protocol)) as [range|] eqn:Hkey.
  - exact (Hok _ _ Hkey).
  - destruct (table !! (COREWEBVIEW2_ALLOWED_PORT_RANGE_SCOPE_DEFAULT, protocol))
      as [range|] eqn:Hdef.
    + exact (Hok _ _ Hdef).
    + by left.
Qed.

(** A set written as two singletons has at most two elements. *)
Lemma size_pair_le (a b : Z * Z) :
  (size ({[ a ]} ∪ {[ b ]} : gset (Z * Z)) <= 2)%nat.
Proof.
  rewrite size_union_alt, size_singleton.
  assert (size ({[ b ]} ∖ {[ a ]} : gset (Z * Z)) <= size ({[ b ]} : gset (Z * Z)))%nat
    as Hle.
  { apply subseteq_size. intros x Hx. apply elem_of_difference in Hx. tauto. }
  rewrite size_singleton in Hle. lia.
Qed.

(** X1. After any sequence of calls on a freshly constructed object the
    table has no key but (Default, Udp) and (WebRtcOnly, Udp), hence at
    most two entries: validation precedes the one insertion. *)
Theorem port_configs_keys_bounded cs mem :
  (forall key,
     is_Some (port_configs_ (run cs (constructed mem)) !! key) ->
     key = (COREWEBVIEW2_ALLOWED_PORT_RANGE_SCOPE_DEFAULT,
            COREWEBVIEW2_TRANSPORT_PROTOCOL_KIND_UDP) \/
     key = (COREWEBVIEW2_ALLOWED_PORT_RANGE_SCOPE_WEB_RTC,
            COREWEBVIEW2_TRANSPORT_PROTOCOL_KIND_UDP)) /\
  (size (port_configs_ (run cs (constructed mem))) <= 2)%nat.
Proof.
  assert (keys_ok (port_configs_ (run cs (constructed mem)))) as Hok.
  { apply run_keys_ok. intros key [range Hlookup]. simpl in Hlookup.
    by rewrite lookup_empty in Hlookup. }
  split; [exact Hok |].
  rewrite <- (size_dom (D := gset (Z * Z))).
  transitivity (size ({[ (COREWEBVIEW2_ALLOWED_PORT_RANGE_SCOPE_DEFAULT,
                          COREWEBVIEW2_TRANSPORT_PROTOCOL_KIND_UDP) ]} ∪
                      {[ (COREWEBVIEW2_ALLOWED_PORT_RANGE_SCOPE_WEB_RTC,
                          COREWEBVIEW2_TRANSPORT_PROTOCOL_KIND_UDP) ]} : gset (Z * Z))).
  - apply subseteq_size. intros key Hin. apply elem_of_dom in Hin.
    destruct (Hok key Hin) as [-> | ->]; set_solver.
  - apply size_pair_le.
Qed.

(** X2. An entry, once in the table, is in it after every further sequence
    of calls: neither method erases, so a scope that was configured
    explicitly never returns to inheriting. *)
Theorem port_configs_never_erased cs : forall s key,
  is_Some (port_configs_ s !! key) ->
  is_Some (port_configs_ (run cs s) !! key).
Proof.
  induction cs as [|c cs IH]; intros s key Hsome; simpl; [exact Hsome |].
  apply IH, exec_keeps_keys, Hsome.
Qed.

(** X3. [SetAllowedPortRange] never writes to the caller's memory, whether
    it accepts or rejects. *)
Theorem SetAllowedPortRange_memory scope protocol minPort maxPort s :
  memory (final (SetAllowedPortRange scope protocol minPort maxPort) s) = memory s.
Proof.
  unfold final.
  destruct (IsValidPortConfig scope protocol minPort maxPort) eqn:Hv.
  - by rewrite SetAllowedPortRange_accept.
  - by rewrite SetAllowedPortRange_reject.
Qed.

(** X4. [GetEffectiveAllowedPortRange] writes to no cell but the two its
    output pointers designate: every other address holds afterwards what
    it held before, on every path. *)
Theorem GetEffectiveAllowedPortRange_memory_frame scope protocol minPort maxPort s a :
  a <> minPort -> a <> maxPort ->
  memory (final (GetEffectiveAllowedPortRange scope protocol minPort maxPort) s) !! a =
  memory s !! a.
Proof.
  intros Hmin Hmax.
  destruct (GetEffectiveAllowedPortRange_memory scope protocol minPort maxPort s)
    as [-> | ->]; [reflexivity |].
  by rewrite !lookup_insert_ne.
Qed.

(** The state [SetAllowedPortRange] leaves, on both paths. *)
Lemma SetAllowedPortRange_final scope protocol minPort maxPort s :
  final (SetAllowedPortRange scope protocol minPort maxPort) s =
  if IsValidPortConfig scope protocol minPort maxPort
  then State (<[(scope, protocol) := (minPort, maxPort)]> (port_configs_ s)) (memory s)
  else s.
Proof.
  unfold final.
  destruct (IsValidPortConfig scope protocol minPort maxPort) eqn:Hv.
  - by rewrite SetAllowedPortRange_accept.
  - by rewrite SetAllowedPortRange_reject.
Qed.

(** What [GetEffectiveAllowedPortRange] does is fixed by the memory, the
    entry of its own key and, when that entry is absent, the entry of the
    Default scope. *)
Lemma GetEffectiveAllowedPortRange_ext scope protocol minPort maxPort s s' :
  port_configs_ s !! (scope, protocol) = port_configs_ s' !! (scope, protocol) ->
  (port_configs_ s !! (scope, protocol) = None ->
   port_configs_ s !! (COREWEBVIEW2_ALLOWED_PORT_RANGE_SCOPE_DEFAULT, protocol) =
   port_configs_ s' !! (COREWEBVIEW2_ALLOWED_PORT_RANGE_SCOPE_DEFAULT, protocol)) ->
  memory s = memory s' ->
  result (GetEffectiveAllowedPortRange scope protocol minPort maxPort) s =
  result (GetEffectiveAllowedPortRange scope protocol minPort maxPort) s' /\
  memory (final (GetEffectiveAllowedPortRange scope protocol minPort maxPort) s) =
  memory (final (GetEffectiveAllowedPortRange scope protocol minPort maxPort) s').
Proof.
  intros Hkey Hdef Hmem.
  destruct (result (GetEffectiveAllowedPortRange scope protocol minPort maxPort) s)
    eqn:Hres.
  - apply GetEffectiveAllowedPortRange_ok_guards in Hres as (? & ? & ? & ?).
    unfold result, final.
    rewrite !GetEffectiveAllowedPortRange_accept by assumption. simpl.
    split; [reflexivity |].
    rewrite <- Hmem. unfold spec_GetEffectiveRange. rewrite <- Hkey.
    destruct (port_configs_ s !! (scope, protocol)) as [range|]; [reflexivity |].
    by rewrite <- Hdef.
  - apply GetEffectiveAllowedPortRange_guards in Hres.
    unfold result, final.
    rewrite !GetEffectiveAllowedPortRange_reject by exact Hres. simpl.
    by split.
Qed.

(** X5. Inheritance across the two methods: when the table has no
    WebRtcOnly entry, a range written successfully to the Default scope is
    the range a following read of the WebRtcOnly scope hands back. *)
Theorem WebRtc_inherits_written_Default minPort maxPort pMin pMax s :
  result (SetAllowedPortRange COREWEBVIEW2_ALLOWED_PORT_RANGE_SCOPE_DEFAULT
            COREWEBVIEW2_TRANSPORT_PROTOCOL_KIND_UDP minPort maxPort) s = S_OK ->
  port_configs_ s !! (COREWEBVIEW2_ALLOWED_PORT_RANGE_SCOPE_WEB_RTC,
                      COREWEBVIEW2_TRANSPORT_PROTOCOL_KIND_UDP) = None ->
  pMin <> nullptr -> pMax <> nullptr ->
  result (GetEffectiveAllowedPortRange COREWEBVIEW2_ALLOWED_PORT_RANGE_SCOPE_WEB_RTC
            COREWEBVIEW2_TRANSPORT_PROTOCOL_KIND_UDP pMin pMax)
         (final (SetAllowedPortRange COREWEBVIEW2_ALLOWED_PORT_RANGE_SCOPE_DEFAULT
                   COREWEBVIEW2_TRANSPORT_PROTOCOL_KIND_UDP minPort maxPort) s) = S_OK /\
  memory (final (GetEffectiveAllowedPortRange COREWEBVIEW2_ALLOWED_PORT_RANGE_SCOPE_WEB_RTC
                   COREWEBVIEW2_TRANSPORT_PROTOCOL_KIND_UDP pMin pMax)
                (final (SetAllowedPortRange COREWEBVIEW2_ALLOWED_PORT_RANGE_SCOPE_DEFAULT
                          COREWEBVIEW2_TRANSPORT_PROTOCOL_KIND_UDP minPort maxPort) s)) =
    <[pMax := maxPort]> (<[pMin := minPort]> (memory s)).
Proof.
  rewrite SetAllowedPortRange_result. unfold result, final.
  destruct (IsValidPortConfig _ _ minPort maxPort) eqn:Hv; [| discriminate].
  intros _ Hnone HpMin HpMax.
  rewrite SetAllowedPortRange_accept by exact Hv. simpl.
  rewrite GetEffectiveAllowedPortRange_accept by (simpl; tauto). simpl.
  unfold spec_GetEffectiveRange.
  rewrite lookup_insert_ne by discriminate. rewrite Hnone.
  by rewrite lookup_insert_eq.
Qed.

(** X6. The Default scope inherits from nothing: with no Default entry a
    read of the Default scope hands back (0, 0), whatever is stored for
    the WebRtcOnly scope. *)
Theorem Default_inherits_nothing pMin pMax s :
  port_configs_ s !! (COREWEBVIEW2_ALLOWED_PORT_RANGE_SCOPE_DEFAULT,
                      COREWEBVIEW2_TRANSPORT_PROTOCOL_KIND_UDP) = None ->
  pMin <> nullptr -> pMax <> nullptr ->
  GetEffectiveAllowedPortRange COREWEBVIEW2_ALLOWED_PORT_RANGE_SCOPE_DEFAULT
    COREWEBVIEW2_TRANSPORT_PROTOCOL_KIND_UDP pMin pMax s =
  (S_OK, State (port_configs_ s) (<[pMax := 0]> (<[pMin := 0]> (memory s)))).
Proof.
  intros Hnone HpMin HpMax.
  rewrite GetEffectiveAllowedPortRange_accept by tauto.
  unfold spec_GetEffectiveRange. by rewrite Hnone.
Qed.

(** X7. A call of [SetAllowedPortRange] on the WebRtcOnly scope, accepted
    or rejected, changes nothing a read of the Default scope returns or
    stores. *)
Theorem SetAllowedPortRange_WebRtc_leaves_Default
    protocol minPort maxPort protocol' pMin pMax s :
  result (GetEffectiveAllowedPortRange COREWEBVIEW2_ALLOWED_PORT_RANGE_SCOPE_DEFAULT
            protocol' pMin pMax)
         (final (SetAllowedPortRange COREWEBVIEW2_ALLOWED_PORT_RANGE_SCOPE_WEB_RTC
                   protocol minPort maxPort) s) =
  result (GetEffectiveAllowedPortRange COREWEBVIEW2_ALLOWED_PORT_RANGE_SCOPE_DEFAULT
            protocol' pMin pMax) s /\
  memory (final (GetEffectiveAllowedPortRange COREWEBVIEW2_ALLOWED_PORT_RANGE_SCOPE_DEFAULT
                   protocol' pMin pMax)
                (final (SetAllowedPortRange COREWEBVIEW2_ALLOWED_PORT_RANGE_SCOPE_WEB_RTC
                          protocol minPort maxPort) s)) =
  memory (final (GetEffectiveAllowedPortRange COREWEBVIEW2_ALLOWED_PORT_RANGE_SCOPE_DEFAULT
                   protocol' pMin pMax) s).
Proof.
  rewrite SetAllowedPortRange_final.
  destruct (IsValidPortConfig COREWEBVIEW2_ALLOWED_PORT_RANGE_SCOPE_WEB_RTC
              protocol minPort maxPort); [| by split].
  apply GetEffectiveAllowedPortRange_ext; simpl.
  - by rewrite lookup_insert_ne.
  - intros _. by rewrite lookup_insert_ne.
  - reflexivity.
Qed.

(** X8. Once the WebRtcOnly scope has an entry of its own, a call of
    [SetAllowedPortRange] on the Default scope changes nothing a read of
    the WebRtcOnly scope returns or stores. *)
Theorem SetAllowedPortRange_Default_leaves_explicit_WebRtc
    protocol minPort maxPort protocol' pMin pMax s :
  is_Some (port_configs_ s !! (COREWEBVIEW2_ALLOWED_PORT_RANGE_SCOPE_WEB_RTC, protocol')) ->
  result (GetEffectiveAllowedPortRange COREWEBVIEW2_ALLOWED_PORT_RANGE_SCOPE_WEB_RTC
            protocol' pMin pMax)
         (final (SetAllowedPortRange COREWEBVIEW2_ALLOWED_PORT_RANGE_SCOPE_DEFAULT
                   protocol minPort maxPort) s) =
  result (GetEffectiveAllowedPortRange COREWEBVIEW2_ALLOWED_PORT_RANGE_SCOPE_WEB_RTC
            protocol' pMin pMax) s /\
  memory (final (GetEffectiveAllowedPortRange COREWEBVIEW2_ALLOWED_PORT_RANGE_SCOPE_WEB_RTC
                   protocol' pMin pMax)
                (final (SetAllowedPortRange COREWEBVIEW2_ALLOWED_PORT_RANGE_SCOPE_DEFAULT
                          protocol minPort maxPort) s)) =
  memory (final (GetEffectiveAllowedPortRange COREWEBVIEW2_ALLOWED_PORT_RANGE_SCOPE_WEB_RTC
                   protocol' pMin pMax) s).
Proof.
  intros [range Hrange]. rewrite SetAllowedPortRange_final.
  destruct (IsValidPortConfig COREWEBVIEW2_ALLOWED_PORT_RANGE_SCOPE_DEFAULT
              protocol minPort maxPort); [| by split].
  apply GetEffectiveAllowedPortRange_ext; simpl.
  - by rewrite lookup_insert_ne.
  - rewrite lookup_insert_ne by discriminate. rewrite Hrange. discriminate.
  - reflexivity.
Qed.

(** X9. After any sequence of calls on a freshly constructed object, a
    read that returns [S_OK] stores a pair that is (0, 0) or has
    1025 <= min <= max <= 65535: no rejected or partial range ever reaches
    a reader. *)
Theorem GetEffectiveAllowedPortRange_output_ok cs mem scope protocol pMin pMax :
  result (GetEffectiveAllowedPortRange scope protocol pMin pMax)
         (run cs (constructed mem)) = S_OK ->
  exists lo hi,
    memory (final (GetEffectiveAllowedPortRange scope protocol pMin pMax)
                  (run cs (constructed mem))) =
      <[pMax := hi]> (<[pMin := lo]> (memory (run cs (constructed mem)))) /\
    ((lo = 0 /\ hi = 0) \/ (1025 <= lo /\ lo <= hi /\ hi <= 65535)).
Proof.
  intros Hres.
  apply GetEffectiveAllowedPortRange_ok_guards in Hres as (? & ? & ? & ?).
  assert (table_ok (port_configs_ (run cs (constructed mem)))) as Hok.
  { apply run_table_ok. unfold table_ok, constructed. simpl. apply map_Forall_empty. }
  pose proof (spec_GetEffectiveRange_ok _ scope protocol Hok) as Hrange.
  destruct (spec_GetEffectiveRange (port_configs_ (run cs (constructed mem)))
              scope protocol) as [lo hi] eqn:Hspec.
  exists lo, hi. split.
  - unfold final. rewrite GetEffectiveAllowedPortRange_accept by assumption.
    simpl. by rewrite Hspec.
  - destruct Hrange as [Heq | Hrange]; [left; by inversion Heq | right; exact Hrange].
Qed.

(** X10. Last write wins: when the second of two writes to one key is
    accepted, the state is the one the second write alone would leave,
    whatever the first write was and whether it was accepted. *)
Theorem SetAllowedPortRange_last_write_wins
    scope protocol minPort1 maxPort1 minPort2 maxPort2 s :
  result (SetAllowedPortRange scope protocol minPort2 maxPort2)
         (final (SetAllowedPortRange scope protocol minPort1 maxPort1) s) = S_OK ->
  final (SetAllowedPortRange scope protocol minPort2 maxPort2)
        (final (SetAllowedPortRange scope protocol minPort1 maxPort1) s) =
  final (SetAllowedPortRange scope protocol minPort2 maxPort2) s.
Proof.
  rewrite SetAllowedPortRange_result, !SetAllowedPortRange_final.
  destruct (IsValidPortConfig scope protocol minPort2 maxPort2); [| discriminate].
  intros _.
  destruct (IsValidPortConfig scope protocol minPort1 maxPort1); [| reflexivity].
  simpl. by rewrite insert_insert_eq.
Qed.

(** X11. Writes to different keys commute: two calls of
    [SetAllowedPortRange] on different (scope, protocol) pairs leave the
    same state in either order, accepted or rejected. *)
Theorem SetAllowedPortRange_commute
    scope1 protocol1 minPort1 maxPort1 scope2 protocol2 minPort2 maxPort2 s :
  (scope1, protocol1) <> (scope2, protocol2) ->
  final (SetAllowedPortRange scope2 protocol2 minPort2 maxPort2)
        (final (SetAllowedPortRange scope1 protocol1 minPort1 maxPort1) s) =
  final (SetAllowedPortRange scope1 protocol1 minPort1 maxPort1)
        (final (SetAllowedPortRange scope2 protocol2 minPort2 maxPort2) s).
Proof.
  intros Hne. rewrite !SetAllowedPortRange_final.
  destruct (IsValidPortConfig scope1 protocol1 minPort1 maxPort1),
           (IsValidPortConfig scope2 protocol2 minPort2 maxPort2);
    simpl; try reflexivity.
  by rewrite insert_insert_ne.
Qed.

(** X12. A read is repeatable: calling [GetEffectiveAllowedPortRange] again
    with the same arguments returns what the first call returned and
    leaves the state the first call left, also when both output pointers
    designate one cell. *)
Theorem GetEffectiveAllowedPortRange_repeatable scope protocol pMin pMax s :
  GetEffectiveAllowedPortRange scope protocol pMin pMax
    (final (GetEffectiveAllowedPortRange scope protocol pMin pMax) s) =
  (result (GetEffectiveAllowedPortRange scope protocol pMin pMax) s,
   final (GetEffectiveAllowedPortRange scope protocol pMin pMax) s).
Proof.
  destruct (result (GetEffectiveAllowedPortRange scope protocol pMin pMax) s)
    eqn:Hres.
  - apply GetEffectiveAllowedPortRange_ok_guards in Hres as (? & ? & ? & ?).
    unfold final.
    rewrite (GetEffectiveAllowedPortRange_accept scope protocol pMin pMax s)
      by assumption.
    simpl. rewrite GetEffectiveAllowedPortRange_accept by assumption. simpl.
    do 2 f_equal. apply map_eq. intros a.
    rewrite !lookup_insert. repeat case_decide; congruence.
  - apply GetEffectiveAllowedPortRange_guards in Hres.
    unfold final.
    by rewrite !GetEffectiveAllowedPortRange_reject.
Qed.

End CoreWebView2ExperimentalEnvironmentOptionsBase.

(** ** The embedding run on the scenarios of the specification *)

(** Nothing configured: the read hands back (0, 0). *)
Example GetEffectiveAllowedPortRange_unconfigured :
  GetEffectiveAllowedPortRange 0 1 0 16 20 (constructed example_memory) =
  (S_OK, State ∅ {[ 16%N := 0; 20%N := 0 ]}).
Proof. vm_compute. reflexivity. Qed.

(** Default (1025, 65535), then WebRtcOnly (2000, 2100): reading WebRtcOnly
    fills the cells with 2000 and 2100, reading Default afterwards with
    1025 and 65535. *)
Example scenario_both_scopes :
  let s := run 0 [CallSetAllowedPortRange 0 0 1025 65535;
                  CallSetAllowedPortRange 1 0 2000 2100;
                  CallGetEffectiveAllowedPortRange 1 0 16 20]
               (constructed example_memory) in
  memory s = {[ 16%N := 2000; 20%N := 2100 ]} /\
  memory (final (GetEffectiveAllowedPortRange 0 0 0 16 20) s) =
    {[ 16%N := 1025; 20%N := 65535 ]}.
Proof. vm_compute. split; reflexivity. Qed.

(** minPort = 3000 above maxPort = 2000, and a scope that is no enumerator,
    are rejected. *)
Example SetAllowedPortRange_rejects :
  SetAllowedPortRange 0 0 0 3000 2000 (example_default_only 0) =
    (E_INVALIDARG, example_default_only 0) /\
  SetAllowedPortRange 0 999 0 2000 3000 (example_default_only 0) =
    (E_INVALIDARG, example_default_only 0) /\
  SetAllowedPortRange 0 (-1) 0 2000 3000 (example_default_only 0) =
    (E_INVALIDARG, example_default_only 0).
Proof. vm_compute. repeat split. Qed.

(** A caller that passes one cell for both outputs finds the maximum in
    it: the minimum is stored first and overwritten. *)
Example GetEffectiveAllowedPortRange_one_cell :
  memory (final (GetEffectiveAllowedPortRange 0 0 0 16 16) (example_default_only 0))
    !! 16%N = Some 3000.
Proof. vm_compute. reflexivity. Qed.

(** ** The claims at concrete inputs

    The protocol enumerator is taken to be 0 here; the scopes are
    0 (Default) and 1 (WebRtcOnly); the output pointers are the addresses 16
    and 20 of [example_memory]. *)

(** WebRtcOnly is not configured, Default holds (2000, 3000): the call
    returns [S_OK] and hands back (2000, 3000). *)
Lemma GetEffectiveAllowedPortRange_resolves_witness :
  result (GetEffectiveAllowedPortRange 0 1 0 16 20) (example_default_only 0) = S_OK /\
  memory (final (GetEffectiveAllowedPortRange 0 1 0 16 20) (example_default_only 0))
    !! 16%N = Some 2000 /\
  memory (final (GetEffectiveAllowedPortRange 0 1 0 16 20) (example_default_only 0))
    !! 20%N = Some 3000.
Proof.
  destruct (GetEffectiveAllowedPortRange_resolves 0 1 0 16 20 (example_default_only 0))
    as (Hres & _ & Hmax & Hmin).
  - right. reflexivity.
  - reflexivity.
  - discriminate.
  - discriminate.
  - split; [exact Hres |]. split; [| exact Hmax].
    apply Hmin. discriminate.
Defined.

(** Writing (2000, 2100) to WebRtcOnly over a Default of (2000, 3000) and
    reading WebRtcOnly back gives (2000, 2100). *)
Lemma SetAllowedPortRange_then_Get_witness :
  result (SetAllowedPortRange 0 1 0 2000 2100) (example_default_only 0) = S_OK /\
  result (GetEffectiveAllowedPortRange 0 1 0 16 20)
         (final (SetAllowedPortRange 0 1 0 2000 2100) (example_default_only 0)) = S_OK /\
  memory (final (GetEffectiveAllowedPortRange 0 1 0 16 20)
                (final (SetAllowedPortRange 0 1 0 2000 2100) (example_default_only 0)))
    !! 16%N = Some 2000 /\
  memory (final (GetEffectiveAllowedPortRange 0 1 0 16 20)
                (final (SetAllowedPortRange 0 1 0 2000 2100) (example_default_only 0)))
    !! 20%N = Some 2100.
Proof.
  destruct (SetAllowedPortRange_then_Get 0 1 0 2000 2100 16 20 (example_default_only 0))
    as (Hset & Hget & _ & Hout).
  - right. reflexivity.
  - reflexivity.
  - lia.
  - lia.
  - lia.
  - discriminate.
  - discriminate.
  - split; [exact Hset |]. split; [exact Hget |].
    apply Hout. discriminate.
Defined.

(** Writing (0, 0) to WebRtcOnly over a Default of (2000, 3000) and reading
    WebRtcOnly back gives (0, 0), not (2000, 3000). *)
Lemma SetAllowedPortRange_unset_hides_default_witness :
  port_configs_ (example_default_only 0) !! (0, 0) = Some (2000, 3000) /\
  result (SetAllowedPortRange 0 1 0 0 0) (example_default_only 0) = S_OK /\
  memory (final (GetEffectiveAllowedPortRange 0 1 0 16 20)
                (final (SetAllowedPortRange 0 1 0 0 0) (example_default_only 0)))
    !! 16%N = Some 0 /\
  memory (final (GetEffectiveAllowedPortRange 0 1 0 16 20)
                (final (SetAllowedPortRange 0 1 0 0 0) (example_default_only 0)))
    !! 20%N = Some 0.
Proof.
  split; [reflexivity |].
  destruct (SetAllowedPortRange_unset_hides_default 0 1 0 16 20 (example_default_only 0))
    as (Hset & _ & _ & _ & Hmin & Hmax).
  - right. reflexivity.
  - reflexivity.
  - discriminate.
  - discriminate.
  - split; [exact Hset |]. split; [exact Hmin | exact Hmax].
Defined.

(** minPort = 500 is rejected and the Default entry stays (2000, 3000). *)
Lemma SetAllowedPortRange_failure_no_effect_witness :
  result (SetAllowedPortRange 0 0 0 500 3000) (example_default_only 0) = E_INVALIDARG /\
  final (SetAllowedPortRange 0 0 0 500 3000) (example_default_only 0) =
    example_default_only 0 /\
  port_configs_ (final (SetAllowedPortRange 0 0 0 500 3000) (example_default_only 0))
    !! (0, 0) = Some (2000, 3000).
Proof.
  assert (result (SetAllowedPortRange 0 0 0 500 3000) (example_default_only 0) =
          E_INVALIDARG) as Hres by reflexivity.
  split; [exact Hres |].
  destruct (SetAllowedPortRange_failure_no_effect 0 0 0 500 3000
              (example_default_only 0) Hres) as (Hsame & Hkeys & _).
  split; [exact Hsame |].
  etrans; [exact (Hkeys (0, 0)) | reflexivity].
Defined.

(** Writing (1025, 65535) to Default leaves WebRtcOnly at (2000, 2100). *)
Lemma SetAllowedPortRange_frame_witness :
  result (SetAllowedPortRange 0 0 0 1025 65535) (example_web_rtc_only 0) = S_OK /\
  port_configs_ (final (SetAllowedPortRange 0 0 0 1025 65535) (example_web_rtc_only 0))
    !! (0, 0) = Some (1025, 65535) /\
  port_configs_ (final (SetAllowedPortRange 0 0 0 1025 65535) (example_web_rtc_only 0))
    !! (1, 0) = Some (2000, 2100).
Proof.
  assert (result (SetAllowedPortRange 0 0 0 1025 65535) (example_web_rtc_only 0) =
          S_OK) as Hres by reflexivity.
  split; [exact Hres |].
  destruct (SetAllowedPortRange_frame 0 0 0 1025 65535 (example_web_rtc_only 0) Hres)
    as (_ & Hkey & _ & Hrtc).
  split; [exact Hkey |].
  etrans; [exact (Hrtc eq_refl 0) | reflexivity].
Defined.

(** Scope 999 is rejected and the cells at 16 and 20 keep 7 and 9. *)
Lemma GetEffectiveAllowedPortRange_failure_no_write_witness :
  result (GetEffectiveAllowedPortRange 0 999 0 16 20) (example_default_only 0) =
    E_INVALIDARG /\
  memory (final (GetEffectiveAllowedPortRange 0 999 0 16 20) (example_default_only 0))
    !! 16%N = Some 7 /\
  memory (final (GetEffectiveAllowedPortRange 0 999 0 16 20) (example_default_only 0))
    !! 20%N = Some 9.
Proof.
  assert (result (GetEffectiveAllowedPortRange 0 999 0 16 20) (example_default_only 0) =
          E_INVALIDARG) as Hres by reflexivity.
  split; [exact Hres |].
  destruct (GetEffectiveAllowedPortRange_failure_no_write 0 999 0 16 20
              (example_default_only 0) Hres) as (_ & _ & Hmin & Hmax).
  split; [etrans; [exact Hmin | reflexivity] | etrans; [exact Hmax | reflexivity]].
Defined.

(** ** The further properties at concrete inputs *)

(** The WebRtcOnly entry survives an unset of its own key, a rejected write
    and a read. *)
Lemma port_configs_never_erased_witness :
  is_Some (port_configs_ (example_web_rtc_only 0) !! (1, 0)) /\
  is_Some (port_configs_
             (run 0 [CallSetAllowedPortRange 1 0 0 0;
                     CallSetAllowedPortRange 0 0 500 1;
                     CallGetEffectiveAllowedPortRange 1 0 16 20]
                  (example_web_rtc_only 0)) !! (1, 0)).
Proof.
  assert (is_Some (port_configs_ (example_web_rtc_only 0) !! (1, 0))) as Hsome.
  { exists (2000, 2100). reflexivity. }
  split; [exact Hsome |].
  exact (port_configs_never_erased 0 _ (example_web_rtc_only 0) (1, 0) Hsome).
Defined.

(** A read through the addresses 20 and 24 leaves the cell at 16 at 7. *)
Lemma GetEffectiveAllowedPortRange_memory_frame_witness :
  memory (final (GetEffectiveAllowedPortRange 0 0 0 20 24) (example_default_only 0))
    !! 16%N = Some 7.
Proof.
  etrans; [| reflexivity].
  apply (GetEffectiveAllowedPortRange_memory_frame 0 0 0 20 24
           (example_default_only 0) 16); discriminate.
Defined.

(** (2000, 3000) written to Default on a fresh object is what a read of
    WebRtcOnly hands back. *)
Lemma WebRtc_inherits_written_Default_witness :
  result (GetEffectiveAllowedPortRange 0 1 0 16 20)
         (final (SetAllowedPortRange 0 0 0 2000 3000) (constructed example_memory)) =
    S_OK /\
  memory (final (GetEffectiveAllowedPortRange 0 1 0 16 20)
                (final (SetAllowedPortRange 0 0 0 2000 3000)
                       (constructed example_memory))) =
    <[20%N := 3000]> (<[16%N := 2000]> example_memory).
Proof.
  apply (WebRtc_inherits_written_Default 0 2000 3000 16 20 (constructed example_memory)).
  - reflexivity.
  - reflexivity.
  - discriminate.
  - discriminate.
Defined.

(** With (2000, 2100) stored for WebRtcOnly only, a read of Default hands
    back (0, 0). *)
Lemma Default_inherits_nothing_witness :
  port_configs_ (example_web_rtc_only 0) !! (1, 0) = Some (2000, 2100) /\
  GetEffectiveAllowedPortRange 0 0 0 16 20 (example_web_rtc_only 0) =
  (S_OK, State (port_configs_ (example_web_rtc_only 0))
               (<[20%N := 0]> (<[16%N := 0]> (memory (example_web_rtc_only 0))))).
Proof.
  split; [reflexivity |].
  apply (Default_inherits_nothing 0 16 20 (example_web_rtc_only 0)).
  - reflexivity.
  - discriminate.
  - discriminate.
Defined.

(** With (2000, 2100) stored for WebRtcOnly, writing (1025, 65535) to
    Default leaves a read of WebRtcOnly as it was. *)
Lemma SetAllowedPortRange_Default_leaves_explicit_WebRtc_witness :
  result (GetEffectiveAllowedPortRange 0 1 0 16 20)
         (final (SetAllowedPortRange 0 0 0 1025 65535) (example_web_rtc_only 0)) =
  result (GetEffectiveAllowedPortRange 0 1 0 16 20) (example_web_rtc_only 0) /\
  memory (final (GetEffectiveAllowedPortRange 0 1 0 16 20)
                (final (SetAllowedPortRange 0 0 0 1025 65535) (example_web_rtc_only 0))) =
  memory (final (GetEffectiveAllowedPortRange 0 1 0 16 20) (example_web_rtc_only 0)).
Proof.
  apply (SetAllowedPortRange_Default_leaves_explicit_WebRtc 0 0 1025 65535 0 16 20
           (example_web_rtc_only 0)).
  exists (2000, 2100). reflexivity.
Defined.

(** After an accepted and a rejected write, a read of WebRtcOnly stores a
    pair that meets the invariant. *)
Lemma GetEffectiveAllowedPortRange_output_ok_witness :
  exists lo hi,
    memory (final (GetEffectiveAllowedPortRange 0 1 0 16 20)
                  (run 0 [CallSetAllowedPortRange 0 0 2000 3000;
                          CallSetAllowedPortRange 1 0 500 600]
                       (constructed example_memory))) =
      <[20%N := hi]> (<[16%N := lo]>
        (memory (run 0 [CallSetAllowedPortRange 0 0 2000 3000;
                        CallSetAllowedPortRange 1 0 500 600]
                     (constructed example_memory)))) /\
    ((lo = 0 /\ hi = 0) \/ (1025 <= lo /\ lo <= hi /\ hi <= 65535)).
Proof.
  apply (GetEffectiveAllowedPortRange_output_ok 0
           [CallSetAllowedPortRange 0 0 2000 3000; CallSetAllowedPortRange 1 0 500 600]
           example_memory 1 0 16 20).
  reflexivity.
Defined.

(** (2000, 2100) then (0, 0) on WebRtcOnly leaves what (0, 0) alone
    leaves. *)
Lemma SetAllowedPortRange_last_write_wins_witness :
  final (SetAllowedPortRange 0 1 0 0 0)
        (final (SetAllowedPortRange 0 1 0 2000 2100) (example_default_only 0)) =
  final (SetAllowedPortRange 0 1 0 0 0) (example_default_only 0).
Proof.
  apply (SetAllowedPortRange_last_write_wins 0 1 0 2000 2100 0 0 (example_default_only 0)).
  reflexivity.
Defined.

(** A write to Default and a write to WebRtcOnly, in either order. *)
Lemma SetAllowedPortRange_commute_witness :
  final (SetAllowedPortRange 0 1 0 3000 4000)
        (final (SetAllowedPortRange 0 0 0 1025 2000) (constructed example_memory)) =
  final (SetAllowedPortRange 0 0 0 1025 2000)
        (final (SetAllowedPortRange 0 1 0 3000 4000) (constructed example_memory)).
Proof.
  apply (SetAllowedPortRange_commute 0 0 0 1025 2000 1 0 3000 4000
           (constructed example_memory)).
  discriminate.
Defined.
